(** * BrainAI AI Education site: the fragment router and the content composer

    A shallow embedding of [App] (the hash router, its effect and its two
    render helpers) and of [Header] (its anchors), followed by the
    properties of the router and of the composed output.

    JSX is embedded as a small element tree.  The browser ([window]) and the
    React state cell [currentView] are threaded through a state monad, and
    every effectful call is also logged, so that the order of the calls of
    [handleHashChange] can be stated. *)

From Stdlib Require Import ZArith.
From stdpp Require Import base strings list gmap pretty.

Open Scope string_scope.

Set Warnings "-register-all".

(** ** JavaScript values used by the router *)

Module JS.

(** [a || b] on strings: a string is falsy exactly when it is empty. *)
Definition or (a b : string) : string :=
  match a with
  | EmptyString => b
  | String _ _ => a
  end.

(** [a === b] on strings. *)
Definition strict_eq (a b : string) : bool := String.eqb a b.

(** [Object.entries(o)] of an object literal whose keys are not
    array indices: own properties in insertion order.  Object literals
    are embedded as association lists in source order. *)
Definition Object_entries {A} (o : list (string * A)) : list (string * A) := o.

(** Property lookup [o[k]] on such an object. *)
Fixpoint get {A} (o : list (string * A)) (k : string) : option A :=
  match o with
  | [] => None
  | (k', v) :: o' => if strict_eq k' k then Some v else get o' k
  end.

End JS.

Infix "||ₛ" := JS.or (at level 50, left associativity).
Infix "===" := JS.strict_eq (at level 60, no associativity).

(** ** Element trees *)

(** The components [App] mounts. *)
Inductive ComponentName :=
| Header | Hero | About | ProgramDetails | AutonomousCarProject
| AIXProject | MultiSorterProject | StudentExchange | Footer.

Global Instance ComponentName_eq_dec : EqDecision ComponentName.
Proof. solve_decision. Defined.

(** The [id] of the [<section>] each section component renders. *)
Definition section_id (c : ComponentName) : option string :=
  match c with
  | Hero => Some "hero"
  | About => Some "about"
  | ProgramDetails => Some "programs"
  | AutonomousCarProject => Some "autonomous-car"
  | AIXProject => Some "aix"
  | MultiSorterProject => Some "multi-sorter"
  | StudentExchange => Some "student-exchange"
  | Header | Footer => None
  end.

(** The props the router and the header set on host elements. *)
Record Props := {
  key : option string;
  className : string;
  href : option string;
  style_display : option string
}.

Inductive Element :=
| Component (c : ComponentName)
| Text (s : string)
| Fragment (children : list Element)
| Tag (tag : string) (props : Props) (children : list Element).

(** An element with [display: 'none'] takes itself and its subtree off the
    screen; it stays mounted. *)
Definition displayed (p : Props) : bool :=
  match style_display p with
  | Some d => negb (d === "none")
  | None => true
  end.

(** Every component leaf of a tree, in document order, with the flag
    telling whether it is on screen.  [shown] is the flag inherited from
    the ancestors. *)
Fixpoint leaves (shown : bool) (e : Element) : list (ComponentName * bool) :=
  match e with
  | Component c => [(c, shown)]
  | Text _ => []
  | Fragment cs => flat_map (leaves shown) cs
  | Tag _ p cs => flat_map (leaves (shown && displayed p)) cs
  end.

Definition mounted (e : Element) : list ComponentName :=
  (leaves true e).*1.

Definition visible (e : Element) : list ComponentName :=
  (filter (λ cb, cb.2 = true) (leaves true e)).*1.

Definition hidden (e : Element) : list ComponentName :=
  (filter (λ cb, cb.2 = false) (leaves true e)).*1.

(** Every keyed host element, in document order, with its on-screen flag. *)
Fixpoint keyed (shown : bool) (e : Element) : list (string * bool) :=
  match e with
  | Component _ | Text _ => []
  | Fragment cs => flat_map (keyed shown) cs
  | Tag _ p cs =>
      let here := shown && displayed p in
      match key p with
      | Some k => [(k, here)]
      | None => []
      end ++ flat_map (keyed here) cs
  end.

(** The [href] of every anchor of a tree, in document order. *)
Fixpoint anchors (e : Element) : list string :=
  match e with
  | Component _ | Text _ => []
  | Fragment cs => flat_map anchors cs
  | Tag t p cs =>
      match href p with
      | Some h => if t === "a" then [h] else []
      | None => []
      end ++ flat_map anchors cs
  end.

(** ** The browser and the React state cell *)

(** The one listener [App] registers, named after its closure. *)
Inductive Listener := handleHashChange_listener.

Global Instance Listener_eq_dec : EqDecision Listener.
Proof. solve_decision. Defined.

Record Window := {
  location_hash : string;
  scroll : Z * Z;
  listeners : list (string * Listener)
}.

Inductive Effect :=
| E_setCurrentView (v : string)
| E_scrollTo (x y : Z)
| E_addEventListener (type : string) (l : Listener)
| E_removeEventListener (type : string) (l : Listener).

Record Runtime := {
  window : Window;
  currentView : string;
  trace : list Effect
}.

(** State monad over [Runtime]. *)
Definition M (A : Type) : Type := Runtime → A * Runtime.

Global Instance M_ret : MRet M := λ A a rt, (a, rt).
Global Instance M_bind : MBind M :=
  λ A B k m rt, let '(a, rt') := m rt in k a rt'.

Definition exec {A} (m : M A) (rt : Runtime) : Runtime := (m rt).2.

Definition log (e : Effect) (rt : Runtime) : Runtime :=
  {| window := window rt; currentView := currentView rt;
     trace := trace rt ++ [e] |}.

Definition with_window (f : Window → Window) (rt : Runtime) : Runtime :=
  {| window := f (window rt); currentView := currentView rt;
     trace := trace rt |}.

(** [window.location.hash] *)
Definition window_location_hash : M string :=
  λ rt, (location_hash (window rt), rt).

(** [setCurrentView(v)] *)
Definition setCurrentView (v : string) : M unit :=
  λ rt, (tt, log (E_setCurrentView v)
               {| window := window rt; currentView := v; trace := trace rt |}).

(** [window.scrollTo(x, y)] *)
Definition window_scrollTo (x y : Z) : M unit :=
  λ rt, (tt, log (E_scrollTo x y)
               (with_window (λ w, {| location_hash := location_hash w;
                                     scroll := (x, y);
                                     listeners := listeners w |}) rt)).

(** [window.addEventListener(type, l, false)]: a listener already
    registered for the type is not registered again. *)
Definition window_addEventListener (type : string) (l : Listener) : M unit :=
  λ rt, (tt, log (E_addEventListener type l)
               (with_window (λ w, {| location_hash := location_hash w;
                                     scroll := scroll w;
                                     listeners :=
                                       if bool_decide ((type, l) ∈ listeners w)
                                       then listeners w
                                       else listeners w ++ [(type, l)] |}) rt)).

(** [window.removeEventListener(type, l, false)] *)
Definition window_removeEventListener (type : string) (l : Listener) : M unit :=
  λ rt, (tt, log (E_removeEventListener type l)
               (with_window (λ w, {| location_hash := location_hash w;
                                     scroll := scroll w;
                                     listeners :=
                                       filter (λ tl, tl ≠ (type, l)) (listeners w) |}) rt)).

(** ** App *)

(** [useState(window.location.hash || '#home')]: the first render. *)
Definition App_init (w : Window) : Runtime :=
  {| window := w; currentView := location_hash w ||ₛ "#home"; trace := [] |}.

Definition handleHashChange : M unit :=
  newHash ← (h ← window_location_hash; mret (h ||ₛ "#home"));
  setCurrentView newHash;;
  window_scrollTo 0 0.

(** The body of [useEffect(..., [])], run once after the first render. *)
Definition App_effect : M unit :=
  window_addEventListener "hashchange" handleHashChange_listener;;
  (* Initial load check *)
  handleHashChange.

(** The cleanup the effect returns. *)
Definition App_cleanup : M unit :=
  window_removeEventListener "hashchange" handleHashChange_listener.

Definition isHomePage (currentView : string) : bool :=
  (currentView === "#home") || (currentView === "#hero").

Definition renderHomePageContent : Element :=
  Fragment [
    Component Hero;
    Component About;
    Component ProgramDetails;
    Component AIXProject;
    Component MultiSorterProject;
    Component AutonomousCarProject;
    Component StudentExchange
  ].

Definition pageWrapperClass : string := "pt-24 min-h-screen".

Definition pages : list (string * Element) := [
  ("#about", Component About);
  ("#programs", Component ProgramDetails);
  ("#autonomous-car", Component AutonomousCarProject);
  ("#aix", Component AIXProject);
  ("#multi-sorter", Component MultiSorterProject);
  ("#student-exchange", Component StudentExchange)
].

Definition renderSinglePageContent (currentView : string) : Element :=
  Tag "div" {| key := None; className := pageWrapperClass;
               href := None; style_display := None |}
    (map (λ '(hash, Component_),
            Tag "div" {| key := Some hash; className := ""; href := None;
                         style_display :=
                           Some (if currentView === hash then "block" else "none") |}
              [Component_])
         (JS.Object_entries pages)).

(** What [App] puts inside [<main>]. *)
Definition content (currentView : string) : Element :=
  if isHomePage currentView
  then renderHomePageContent
  else renderSinglePageContent currentView.

Definition App_render (currentView : string) : Element :=
  Tag "div" {| key := None;
               className := "bg-brain-dark text-brain-light-slate font-sans leading-relaxed";
               href := None; style_display := None |}
    [ Component Header;
      Tag "main" {| key := None;
                    className := "container mx-auto px-6 md:px-10 lg:px-20";
                    href := None; style_display := None |}
        [content currentView];
      Component Footer ].

(** ** Header *)

Record NavLink := { name : string; link_href : string }.

Definition navLinks : list NavLink := [
  {| name := "소개"; link_href := "#about" |};
  {| name := "프로그램"; link_href := "#programs" |};
  {| name := "AI + X"; link_href := "#aix" |};
  {| name := "자동분류 챌린지"; link_href := "#multi-sorter" |};
  {| name := "자율주행 챌린지"; link_href := "#autonomous-car" |};
  {| name := "학생 교류"; link_href := "#student-exchange" |}
].

Definition Header_render (isScrolled : bool) : Element :=
  Tag "header"
    {| key := None;
       className :=
         "fixed top-0 left-0 right-0 z-50 transition-all duration-300 " ++
         (if isScrolled then "bg-brain-dark/80 backdrop-blur-sm shadow-lg"
          else "bg-transparent");
       href := None; style_display := None |}
    [ Tag "nav"
        {| key := None;
           className := "container mx-auto px-6 md:px-10 lg:px-20 py-4 flex justify-between items-center";
           href := None; style_display := None |}
        [ Tag "a"
            {| key := None; className := "text-2xl font-bold text-brain-teal";
               href := Some "#home"; style_display := None |}
            [Text "BrainAI"];
          Tag "div"
            {| key := None; className := "hidden md:flex items-center space-x-6";
               href := None; style_display := None |}
            (map (λ link,
                    Tag "a"
                      {| key := Some (name link);
                         className := "text-sm text-brain-lightest-slate hover:text-brain-teal transition-colors duration-300 whitespace-nowrap";
                         href := Some (link_href link); style_display := None |}
                      [Text (name link)])
                 navLinks) ] ].

(** ** Browser events and the life of the application *)

Inductive Event :=
| HashChange (newHash : string)
| Scroll (x y : Z).

Definition run_listener (l : Listener) : M unit :=
  match l with
  | handleHashChange_listener => handleHashChange
  end.

(** The listeners registered for [type] when the event is fired run in
    registration order. *)
Definition fire (type : string) (rt : Runtime) : Runtime :=
  foldl (λ rt' tl, if tl.1 === type then exec (run_listener tl.2) rt' else rt')
        rt (listeners (window rt)).

(** The browser updates its own state, then fires the event. *)
Definition dispatch (ev : Event) (rt : Runtime) : Runtime :=
  match ev with
  | HashChange h =>
      fire "hashchange"
        (with_window (λ w, {| location_hash := h; scroll := scroll w;
                              listeners := listeners w |}) rt)
  | Scroll x y =>
      fire "scroll"
        (with_window (λ w, {| location_hash := location_hash w; scroll := (x, y);
                              listeners := listeners w |}) rt)
  end.

(** First render, then the effect. *)
Definition startup (w : Window) : Runtime := exec App_effect (App_init w).

(** A page freshly loaded: nothing registered yet. *)
Definition fresh (hash : string) (pos : Z * Z) : Window :=
  {| location_hash := hash; scroll := pos; listeners := [] |}.

(** The states of a mounted application. *)
Inductive reachable : Runtime → Prop :=
| reach_startup hash pos : reachable (startup (fresh hash pos))
| reach_dispatch rt ev : reachable rt → reachable (dispatch ev rt).

(** A run of the mounted application over a sequence of events. *)
Definition run (evs : list Event) (rt : Runtime) : Runtime :=
  foldl (λ rt' ev, dispatch ev rt') rt evs.

(** The handler of [App] is the one listener of the window. *)
Definition registered (rt : Runtime) : Prop :=
  listeners (window rt) = [("hashchange", handleHashChange_listener)].

(** ** Vocabulary of the properties *)

(** The registry keys, in insertion order. *)
Definition registry_keys : list string := (JS.Object_entries pages).*1.

(** The fragments [App] has a case for: the two literals of [isHomePage]
    and the keys of [pages]. *)
Definition recognized_fragments : list string :=
  ["#home"; "#hero"] ++ registry_keys.

(** The key under which a component is registered in [pages], if any. *)
Definition key_of (c : ComponentName) : option string :=
  fst <$> find (λ kv, bool_decide (mounted kv.2 = [c])) pages.

(** The registry keys of the sections of the home page, in the order the
    home page concatenates them; [Hero] has no key and is skipped. *)
Definition home_keys : list string :=
  omap key_of (visible renderHomePageContent).

(** The keys of the keyed wrappers that are on screen, and of those that
    are not. *)
Definition visible_keys (e : Element) : list string :=
  (filter (λ kb, kb.2 = true) (keyed true e)).*1.

Definition hidden_keys (e : Element) : list string :=
  (filter (λ kb, kb.2 = false) (keyed true e)).*1.

(** The [href]s of the anchors [Header] renders, and the set of them. *)
Definition Header_hrefs (isScrolled : bool) : list string :=
  anchors (Header_render isScrolled).

Definition Header_href_set (isScrolled : bool) : gset string :=
  list_to_set (Header_hrefs isScrolled).

Definition recognized_set : gset string := list_to_set recognized_fragments.

(** ** SectionTitle *)

(** Props of a host element that only carries a class. *)
Definition class (c : string) : Props :=
  {| key := None; className := c; href := None; style_display := None |}.

Definition SectionTitle (number title : string) : Element :=
  Tag "h2" (class "text-3xl font-bold text-brain-lightest-slate mb-8 flex items-center")
    [ Tag "span" (class "text-brain-teal font-mono mr-3 text-2xl")
        [Text number; Text "."];
      Text " "; Text title;
      Tag "span" (class "flex-grow h-px bg-brain-light-navy ml-4") [] ].

(** ** ProgramCard and ProgramDetails *)

(** [s.startsWith(p)] *)
Definition startsWith (s p : string) : bool := String.prefix p s.

Record ProgramCardProps := {
  card_title : string;
  card_description : string;
  card_link : string;
  card_imageSrc : string
}.

(** The [target] attribute of the card's anchor. *)
Definition ProgramCard_target (link : string) : string :=
  if startsWith link "#" then "_self" else "_blank".

(** The card; [target], [rel], [src] and [alt] have no field in [Props],
    [target] is given by [ProgramCard_target]. *)
Definition ProgramCard (p : ProgramCardProps) : Element :=
  Tag "a"
    {| key := None;
       className := "group block bg-brain-navy rounded-lg overflow-hidden shadow-lg hover:-translate-y-2 transition-transform duration-300";
       href := Some (card_link p); style_display := None |}
    [ Tag "div" (class "h-48 overflow-hidden")
        [ Tag "img" (class "w-full h-full object-cover group-hover:scale-105 transition-transform duration-300") [] ];
      Tag "div" (class "p-6")
        [ Tag "h3" (class "text-xl font-bold text-brain-lightest-slate mb-2 group-hover:text-brain-teal transition-colors duration-300")
            [Text (card_title p)];
          Tag "p" (class "text-brain-slate") [Text (card_description p)] ] ].

Definition programs : list ProgramCardProps := [
  {| card_title := "AI + X (다양한 산업 접목)";
     card_description := "의료, 환경, 예술 등 다양한 분야와 AI를 융합하는 방법을 No Code, Low Code 기반으로 학습합니다.";
     card_link := "#aix";
     card_imageSrc := "https://picsum.photos/seed/aix/600/400" |};
  {| card_title := "BrainAI Multi Sorter 자동분류 챌린지";
     card_description := "AI + Physical 컴퓨팅: 실제 하드웨어(BrainAI Multi Sorter)를 제어하며 자동분류 AI 기술을 현실 세계에 적용합니다.";
     card_link := "#multi-sorter";
     card_imageSrc := "https://picsum.photos/seed/sorter/600/400" |};
  {| card_title := "BrainAI Car 자율주행 챌린지";
     card_description := "AI + Physical 컴퓨팅: 실제 하드웨어(BrainAI Car)를 제어하며 자율주행 AI 기술을 현실 세계에 적용합니다.";
     card_link := "#autonomous-car";
     card_imageSrc := "https://picsum.photos/seed/autocar/600/400" |};
  {| card_title := "South Korea & Singapore Student Exchange";
     card_description := "싱가포르 학생들과의 교류를 통해 글로벌 AI 역량을 키우고 국제적 감각을 함양합니다.";
     card_link := "#student-exchange";
     card_imageSrc := "https://picsum.photos/seed/exchange/600/400" |}
].

(** [ProgramDetails].  The React key of a card, its title, sits on the
    component and not on a host element. *)
Definition ProgramDetails_render : Element :=
  Tag "section" (class "py-24 animate-fade-in-up")
    [ SectionTitle "02" "BrainAI AI 교육 프로그램";
      Tag "div" (class "grid md:grid-cols-2 lg:grid-cols-4 gap-8")
        (map (λ program, ProgramCard program) programs);
      Tag "div" (class "text-center mt-12")
        [ Tag "p" (class "text-brain-slate")
            [ Text "BrainAI AI 교육 프로그램은 글로벌 기업 인텔의 AI 교육 프로그램인";
              Text " ";
              Tag "a"
                {| key := None; className := "text-brain-teal hover:underline font-bold";
                   href := Some "https://www.intel.com/content/www/us/en/corporate/artificial-intelligence/digital-readiness-ai-for-youth.html";
                   style_display := None |}
                [Text "Intel® AI for Youth Program"];
              Text "과"; Text " "; Tag "br" (class "") [];
              Tag "a"
                {| key := None; className := "text-brain-teal hover:underline font-bold";
                   href := Some "https://aistudio.google.com/";
                   style_display := None |}
                [Text "Google AI Studio"];
              Text "를 기반으로 합니다." ] ] ].

(** ** AIProjectCycle *)

Record CycleStep := {
  icon : string;
  step_title : string;
  step_description : string
}.

Definition steps : list CycleStep := [
  {| icon := "🧭"; step_title := "문제 정의";
     step_description := "해결하고 싶은 문제는 무엇인가? (예: 특정 코스 완주하기)" |};
  {| icon := "📊"; step_title := "데이터 획득";
     step_description := "주행에 필요한 데이터는 무엇인가? (예: BrainAI Car, 스마트 폰)" |};
  {| icon := "🔍"; step_title := "데이터 탐색";
     step_description := "획득한 데이터를 어떻게 가공하고 전처리할 것인가?" |};
  {| icon := "🤖"; step_title := "모델링";
     step_description := "어떤 AI 알고리즘으로 문제를 해결할 것인가? (예: TensorFlow 모델 설계)" |};
  {| icon := "✅"; step_title := "모델 평가";
     step_description := "AI 모델 성능이 얼마나 좋은가? 하드웨어에서 최적화되어 있는가? (예: 인텔 PC 사용: OpenVINO로 최적화)" |};
  {| icon := "🚗"; step_title := "배포";
     step_description := "완성된 AI 모델을 자율주행차에 탑재하고 최종 미션을 수행합니다." |}
].

(** The body of [steps.map((step, index) => ...)]: the card is keyed by
    its index and shows [index + 1]. *)
Definition render_step (index : nat) (step : CycleStep) : Element :=
  Tag "div"
    {| key := Some (pretty index);
       className := "lg:col-span-1 md:col-span-1 col-span-2";
       href := None; style_display := None |}
    [ Tag "div" (class "relative bg-brain-navy p-6 rounded-lg shadow-lg z-10 text-center flex flex-col items-center")
        [ Tag "div" (class "text-4xl mb-4") [Text (icon step)];
          Tag "h3" (class "text-lg font-bold text-brain-teal mb-2")
            [ Tag "span" (class "font-mono") [Text (pretty (index + 1)); Text "."];
              Text " "; Text (step_title step) ];
          Tag "p" (class "text-brain-slate text-sm") [Text (step_description step)] ] ].

(** The grid of cards, for any list of steps: [AIProjectCycle] and the
    step grids of [AIXProject], [MultiSorterProject] and [StudentExchange]
    are this code over their own lists. *)
Definition render_steps (steps : list CycleStep) : Element :=
  Tag "div" (class "grid grid-cols-1 md:grid-cols-2 lg:grid-cols-3 gap-8")
    (imap render_step steps).

Definition AIProjectCycle_render : Element :=
  Tag "div" (class "relative max-w-4xl mx-auto")
    [ Tag "div" (class "hidden lg:block absolute top-1/2 left-0 w-full h-0.5 bg-brain-light-navy -translate-y-1/2") [];
      render_steps steps;
      Tag "p" (class "text-center mt-12 text-brain-light-slate max-w-2xl mx-auto")
        [Text "이 6단계를 직접 경험함으로써, 학생들은 AI 기술이 단순한 이론이 아닌, 실제 문제를 해결하는 강력한 도구임을 깨닫게 됩니다."] ].

(** The text leaves of a tree, in document order. *)
Fixpoint texts (e : Element) : list string :=
  match e with
  | Component _ => []
  | Text s => [s]
  | Fragment cs | Tag _ _ cs => flat_map texts cs
  end.

(** ** The header's scroll flag *)

(** [handleScroll] of [Header]: the value it passes to [setIsScrolled],
    [window.scrollY > 10]. *)
Definition handleScroll (w : Window) : bool := (10 <? (scroll w).2)%Z.

(** The page: [App] with its router state, and the [isScrolled] cell of
    the [Header] it mounts. *)
Record Page := {
  app : Runtime;
  isScrolled : bool
}.

(** The browser fires [scroll] when the scroll position has changed, by
    the user or by [window.scrollTo]; the header's listener then runs
    [handleScroll].  [before] is the window before the change. *)
Definition scroll_event (before : Window) (p : Page) : Page :=
  if bool_decide (scroll (window (app p)) = scroll before)
  then p
  else {| app := app p; isScrolled := handleScroll (window (app p)) |}.

(** [useState(false)] in [Header], and the effect of [App]. *)
Definition Page_startup (hash : string) (pos : Z * Z) : Page :=
  scroll_event (fresh hash pos)
    {| app := startup (fresh hash pos); isScrolled := false |}.

Definition Page_dispatch (ev : Event) (p : Page) : Page :=
  scroll_event (window (app p))
    {| app := dispatch ev (app p); isScrolled := isScrolled p |}.

Inductive Page_reachable : Page → Prop :=
| Page_reach_startup hash pos : Page_reachable (Page_startup hash pos)
| Page_reach_dispatch p ev :
    Page_reachable p → Page_reachable (Page_dispatch ev p).

(** What a fragment-change event adds to the trace, and a scroll event. *)
Definition event_trace (ev : Event) : list Effect :=
  match ev with
  | HashChange h => [E_setCurrentView (h ||ₛ "#home"); E_scrollTo 0 0]
  | Scroll _ _ => []
  end.

(** ** Proof steps *)

(** Unfolds the monad and the primitive calls of a computation applied to
    a state. *)
Ltac step_monad :=
  unfold exec, mbind, M_bind, mret, M_ret,
    window_location_hash, setCurrentView, window_scrollTo,
    window_addEventListener, window_removeEventListener, log, with_window;
  cbn.

(** Case analysis on membership in the registry. *)
Ltac registry_cases H :=
  unfold registry_keys in H; cbn in H; set_unfold in H;
  destruct H as [-> | [-> | [-> | [-> | [-> | [-> | []]]]]]].

(** ** Basic facts *)

Lemma strict_eq_true (a b : string) : a === b = true ↔ a = b.
Proof. apply String.eqb_eq. Qed.

Lemma strict_eq_false (a b : string) : a === b = false ↔ a ≠ b.
Proof. apply String.eqb_neq. Qed.

Lemma or_nonempty (a b : string) : b ≠ "" → a ||ₛ b ≠ "".
Proof. destruct a; [intros H; exact H | discriminate]. Qed.

(** *** The handler, as one state update *)

Lemma handleHashChange_spec (rt : Runtime) :
  exec handleHashChange rt =
  {| window := {| location_hash := location_hash (window rt);
                  scroll := (0, 0)%Z;
                  listeners := listeners (window rt) |};
     currentView := location_hash (window rt) ||ₛ "#home";
     trace := trace rt ++ [E_setCurrentView (location_hash (window rt) ||ₛ "#home");
                           E_scrollTo 0 0] |}.
Proof.
  destruct rt as [w v t]. unfold handleHashChange. step_monad.
  by rewrite <- app_assoc.
Qed.

Lemma handleHashChange_registered (rt : Runtime) :
  registered rt → registered (exec handleHashChange rt).
Proof. unfold registered. by rewrite handleHashChange_spec. Qed.

Lemma startup_registered (hash : string) (pos : Z * Z) :
  registered (startup (fresh hash pos)).
Proof. reflexivity. Qed.

Lemma dispatch_HashChange (h : string) (rt : Runtime) :
  registered rt →
  dispatch (HashChange h) rt =
  exec handleHashChange
    (with_window (λ w, {| location_hash := h; scroll := scroll w;
                          listeners := listeners w |}) rt).
Proof. unfold registered, dispatch, fire. cbn. by intros ->. Qed.

Lemma dispatch_Scroll (x y : Z) (rt : Runtime) :
  registered rt →
  dispatch (Scroll x y) rt =
  with_window (λ w, {| location_hash := location_hash w; scroll := (x, y);
                       listeners := listeners w |}) rt.
Proof. unfold registered, dispatch, fire. cbn. by intros ->. Qed.

Lemma reachable_registered (rt : Runtime) : reachable rt → registered rt.
Proof.
  induction 1 as [hash pos | rt ev _ IH].
  - apply startup_registered.
  - destruct ev as [h | x y].
    + rewrite dispatch_HashChange by done.
      apply handleHashChange_registered. exact IH.
    + rewrite dispatch_Scroll by done. exact IH.
Qed.

(** Teardown: the cleanup of the effect leaves no listener behind, and
    fragment changes no longer reach the state. *)
Lemma App_cleanup_unregisters (rt : Runtime) (h : string) :
  registered rt →
  listeners (window (exec App_cleanup rt)) = [] ∧
  currentView (dispatch (HashChange h) (exec App_cleanup rt)) = currentView rt.
Proof.
  unfold registered, App_cleanup. step_monad. intros ->.
  split; reflexivity.
Qed.

Lemma dispatch_HashChange_reachable (h : string) (rt : Runtime) :
  reachable rt →
  dispatch (HashChange h) rt =
  {| window := {| location_hash := h; scroll := (0, 0)%Z;
                  listeners := listeners (window rt) |};
     currentView := h ||ₛ "#home";
     trace := trace rt ++ [E_setCurrentView (h ||ₛ "#home"); E_scrollTo 0 0] |}.
Proof.
  intros Hr. rewrite dispatch_HashChange by by apply reachable_registered.
  by rewrite handleHashChange_spec.
Qed.

Lemma run_reachable (evs : list Event) (rt : Runtime) :
  reachable rt → reachable (run evs rt).
Proof.
  revert rt. induction evs as [| ev evs IH]; intros rt Hr; [exact Hr |].
  cbn. apply IH. by constructor.
Qed.


Lemma reachable_nonempty (rt : Runtime) : reachable rt → currentView rt ≠ "".
Proof.
  induction 1 as [hash pos | rt ev Hr IH].
  - unfold startup, App_effect. step_monad. by apply or_nonempty.
  - destruct ev as [h | x y].
    + rewrite dispatch_HashChange_reachable by done. cbn. by apply or_nonempty.
    + rewrite dispatch_Scroll by by apply reachable_registered. exact IH.
Qed.

(** *** The single-page output, entry by entry *)

Lemma keyed_renderSinglePageContent (v : string) :
  keyed true (renderSinglePageContent v) =
  map (λ hash, (hash, v === hash)) registry_keys.
Proof.
  unfold renderSinglePageContent, registry_keys, displayed. cbn.
  repeat match goal with |- context [v === ?k] => destruct (v === k) end;
    reflexivity.
Qed.

Lemma leaves_renderSinglePageContent (v : string) :
  leaves true (renderSinglePageContent v) =
  [ (About, v === "#about");
    (ProgramDetails, v === "#programs");
    (AutonomousCarProject, v === "#autonomous-car");
    (AIXProject, v === "#aix");
    (MultiSorterProject, v === "#multi-sorter");
    (StudentExchange, v === "#student-exchange") ].
Proof.
  unfold renderSinglePageContent, displayed. cbn.
  repeat match goal with |- context [v === ?k] => destruct (v === k) end;
    reflexivity.
Qed.


Lemma leaves_App_render (v : string) :
  leaves true (App_render v) =
  (Header, true) :: leaves true (content v) ++ [(Footer, true)].
Proof. unfold App_render. cbn. by rewrite app_nil_r. Qed.

Lemma visible_App_render (v : string) :
  visible (App_render v) = Header :: visible (content v) ++ [Footer].
Proof.
  unfold visible. rewrite leaves_App_render.
  rewrite filter_cons_True by done. rewrite filter_app, fmap_cons, fmap_app.
  reflexivity.
Qed.

Lemma unregistered_strict_eq (v hash : string) :
  v ∉ registry_keys → hash ∈ registry_keys → v === hash = false.
Proof. intros Hv Hh. apply strict_eq_false. by intros ->. Qed.

Lemma recognized_fragments_eq :
  recognized_fragments =
  ["#home"; "#hero"; "#about"; "#programs"; "#autonomous-car"; "#aix";
   "#multi-sorter"; "#student-exchange"].
Proof. reflexivity. Qed.

Lemma isHomePage_false (v : string) :
  v ≠ "#home" → v ≠ "#hero" → isHomePage v = false.
Proof.
  intros H1 H2. unfold isHomePage.
  apply strict_eq_false in H1, H2. by rewrite H1, H2.
Qed.

(** ** The composed output *)

(** C1: for a navigation state that is one of the six registry keys, the
    output mounts all six registry entries, in registry order; the wrapper
    keyed by the state is the only one on screen and the five others are
    mounted with [display: 'none']. *)
Theorem single_page_shows_exactly_the_selected_entry (f : string) :
  f ∈ registry_keys →
  content f = renderSinglePageContent f ∧
  (keyed true (content f)).*1 = registry_keys ∧
  mounted (content f) =
    [About; ProgramDetails; AutonomousCarProject; AIXProject;
     MultiSorterProject; StudentExchange] ∧
  visible_keys (content f) = [f] ∧
  hidden_keys (content f) = filter (λ k, k ≠ f) registry_keys ∧
  length (hidden_keys (content f)) = 5 ∧
  ∃ c, JS.get pages f = Some (Component c) ∧
       visible (content f) = [c] ∧
       hidden (content f) = filter (λ c', c' ≠ c) (mounted (content f)) ∧
       length (hidden (content f)) = 5 ∧
       visible (App_render f) = [Header; c; Footer].
Proof.
  intros Hf. registry_cases Hf; vm_compute;
    repeat split; eexists; repeat split; reflexivity.
Qed.

Lemma single_page_shows_exactly_the_selected_entry_witness :
  "#aix" ∈ registry_keys ∧ visible_keys (content "#aix") = ["#aix"].
Proof.
  assert (H : "#aix" ∈ registry_keys) by (apply (bool_decide_unpack _); reflexivity).
  split; [exact H |].
  apply (single_page_shows_exactly_the_selected_entry "#aix" H).
Defined.

(** C2: for the navigation states [#home] and [#hero] the output is the
    concatenated home page: seven sections, all on screen, in the order
    hero, about, programs, aix, multi-sorter, autonomous-car,
    student-exchange. *)
Theorem home_page_shows_all_sections_in_order (f : string) :
  f = "#home" ∨ f = "#hero" →
  content f = renderHomePageContent ∧
  visible (content f) =
    [Hero; About; ProgramDetails; AIXProject; MultiSorterProject;
     AutonomousCarProject; StudentExchange] ∧
  hidden (content f) = [] ∧
  omap section_id (visible (content f)) =
    ["hero"; "about"; "programs"; "aix"; "multi-sorter"; "autonomous-car";
     "student-exchange"] ∧
  visible (App_render f) =
    [Header; Hero; About; ProgramDetails; AIXProject; MultiSorterProject;
     AutonomousCarProject; StudentExchange; Footer].
Proof. intros [-> | ->]; repeat split; reflexivity. Qed.

Lemma home_page_shows_all_sections_in_order_witness :
  ("#hero" = "#home" ∨ "#hero" = "#hero") ∧
  length (visible (content "#hero")) = 7.
Proof.
  assert (H : "#hero" = "#home" ∨ "#hero" = "#hero") by (right; reflexivity).
  split; [exact H |].
  destruct (home_page_shows_all_sections_in_order "#hero" H) as (_ & Hv & _).
  rewrite Hv. reflexivity.
Defined.

(** C4: for a navigation state that is neither [#home] nor [#hero] nor a
    registry key, the output still mounts the six registry entries and
    none of them is on screen.  [content] is a total function: an element
    tree is returned, nothing is raised. *)
Theorem unknown_fragment_shows_nothing (f : string) :
  f ≠ "#home" → f ≠ "#hero" → f ∉ registry_keys →
  content f = renderSinglePageContent f ∧
  (keyed true (content f)).*1 = registry_keys ∧
  mounted (content f) =
    [About; ProgramDetails; AutonomousCarProject; AIXProject;
     MultiSorterProject; StudentExchange] ∧
  visible_keys (content f) = [] ∧
  hidden_keys (content f) = registry_keys ∧
  visible (content f) = [] ∧
  hidden (content f) = mounted (content f) ∧
  visible (App_render f) = [Header; Footer].
Proof.
  intros H1 H2 Hf.
  assert (Hc : content f = renderSinglePageContent f).
  { unfold content. by rewrite isHomePage_false. }
  assert (Hk : keyed true (content f) = map (λ hash, (hash, false)) registry_keys).
  { rewrite Hc, keyed_renderSinglePageContent.
    apply map_ext_in. intros k Hk. f_equal.
    apply unregistered_strict_eq; [done | by apply list_elem_of_In]. }
  assert (Hl : leaves true (content f) =
               map (λ c, (c, false))
                 [About; ProgramDetails; AutonomousCarProject; AIXProject;
                  MultiSorterProject; StudentExchange]).
  { rewrite Hc, leaves_renderSinglePageContent.
    rewrite !(unregistered_strict_eq f) by
      (try exact Hf; apply (bool_decide_unpack _); reflexivity).
    reflexivity. }
  split; [exact Hc |].
  rewrite visible_App_render.
  unfold visible_keys, hidden_keys, visible, hidden, mounted.
  rewrite Hk, Hl. repeat split; reflexivity.
Qed.

Lemma unknown_fragment_shows_nothing_witness :
  visible (content "#unknown-page") = [] ∧
  length (mounted (content "#unknown-page")) = 6.
Proof.
  assert (H1 : "#unknown-page" ≠ "#home") by discriminate.
  assert (H2 : "#unknown-page" ≠ "#hero") by discriminate.
  assert (H3 : "#unknown-page" ∉ registry_keys)
    by (apply (bool_decide_unpack _); reflexivity).
  destruct (unknown_fragment_shows_nothing "#unknown-page" H1 H2 H3)
    as (_ & _ & Hm & _ & _ & Hv & _).
  rewrite Hv, Hm. split; reflexivity.
Defined.

(** C5, as stated: the registry's insertion order is the order in which
    the home page concatenates the registry's sections.  It is not:
    [pages] lists [#autonomous-car] third, the home page shows
    [AutonomousCarProject] after [AIXProject] and [MultiSorterProject]. *)
Lemma registry_order_is_not_home_order : registry_keys ≠ home_keys.
Proof. vm_compute. discriminate. Qed.

(** C5, amended: the registry holds exactly the sections the home page
    concatenates after the hero block, each once, but in an order of its
    own; the home order is the one written in [renderHomePageContent]. *)
Theorem registry_keys_permute_home_keys :
  registry_keys ≡ₚ home_keys ∧
  NoDup registry_keys ∧
  registry_keys =
    ["#about"; "#programs"; "#autonomous-car"; "#aix"; "#multi-sorter";
     "#student-exchange"] ∧
  home_keys =
    ["#about"; "#programs"; "#aix"; "#multi-sorter"; "#autonomous-car";
     "#student-exchange"] ∧
  visible renderHomePageContent =
    Hero :: [About; ProgramDetails; AIXProject; MultiSorterProject;
             AutonomousCarProject; StudentExchange].
Proof.
  split; [vm_compute; solve_Permutation |].
  split; [apply (bool_decide_unpack _); reflexivity |].
  repeat split; reflexivity.
Qed.

(** ** The header *)

(** C9, as stated: the set of the header's [href]s is the set of the eight
    recognized fragments.  It is not: no anchor of the header points to
    [#hero]. *)
Lemma Header_hrefs_are_not_all_recognized_fragments :
  Header_href_set false ≠ recognized_set.
Proof.
  intros H.
  assert (Hh : "#hero" ∈ Header_href_set false).
  { rewrite H. unfold recognized_set. vm_compute recognized_fragments.
    set_solver. }
  unfold Header_href_set in Hh. vm_compute Header_hrefs in Hh. set_solver.
Qed.

(** C9, amended: whatever the scroll flag, the header renders seven
    anchors, the brand link to [#home] and one link per registry key; as a
    set this is every recognized fragment except [#hero]. *)
Theorem Header_hrefs_are_recognized_fragments_but_hero (isScrolled : bool) :
  Header_hrefs isScrolled =
    ["#home"; "#about"; "#programs"; "#aix"; "#multi-sorter";
     "#autonomous-car"; "#student-exchange"] ∧
  Header_href_set isScrolled = recognized_set ∖ {["#hero"]} ∧
  Header_href_set isScrolled = {["#home"]} ∪ list_to_set registry_keys ∧
  "#hero" ∈ recognized_set ∧
  "#hero" ∉ Header_href_set isScrolled.
Proof.
  assert (Hl : Header_hrefs isScrolled =
               ["#home"; "#about"; "#programs"; "#aix"; "#multi-sorter";
                "#autonomous-car"; "#student-exchange"]) by reflexivity.
  split; [exact Hl |].
  unfold Header_href_set, recognized_set. rewrite Hl.
  repeat split; apply (bool_decide_unpack _); vm_compute; reflexivity.
Qed.

(** ** The router *)

(** C3: when the browser reports an empty fragment, the navigation state
    is [#home]: at the first render, after the effect has run, and after
    every fragment-change event of the mounted application. *)
Theorem empty_fragment_gives_home (w : Window) (rt : Runtime) :
  location_hash w = "" → reachable rt →
  currentView (App_init w) = "#home" ∧
  currentView (startup w) = "#home" ∧
  currentView (exec handleHashChange (App_init w)) = "#home" ∧
  currentView (dispatch (HashChange "") rt) = "#home".
Proof.
  intros Hw Hr. repeat split.
  - unfold App_init. cbn. by rewrite Hw.
  - unfold startup, App_effect. step_monad. by rewrite Hw.
  - rewrite handleHashChange_spec. cbn. by rewrite Hw.
  - by rewrite dispatch_HashChange_reachable.
Qed.

Lemma empty_fragment_gives_home_witness :
  currentView (App_init (fresh "" (0, 120)%Z)) = "#home" ∧
  currentView
    (dispatch (HashChange "") (startup (fresh "#aix" (0, 120)%Z))) = "#home".
Proof.
  destruct (empty_fragment_gives_home
              (fresh "" (0, 120)%Z) (startup (fresh "#aix" (0, 120)%Z))
              eq_refl (reach_startup "#aix" (0, 120)%Z))
    as (H1 & _ & _ & H4).
  split; [exact H1 | exact H4].
Defined.

(** C6: the fragment-change handler is idempotent.  Run twice on the same
    browser fragment it leaves the navigation state, the window and the
    sections on screen as one run does; so does the fragment-change event
    of the mounted application. *)
Theorem handleHashChange_idempotent (rt : Runtime) (h : string) :
  reachable rt →
  let once := exec handleHashChange rt in
  let twice := exec handleHashChange once in
  let ev_once := dispatch (HashChange h) rt in
  let ev_twice := dispatch (HashChange h) ev_once in
  (currentView twice = currentView once ∧
   window twice = window once ∧
   visible (App_render (currentView twice)) =
   visible (App_render (currentView once))) ∧
  (currentView ev_twice = currentView ev_once ∧
   window ev_twice = window ev_once ∧
   visible (App_render (currentView ev_twice)) =
   visible (App_render (currentView ev_once))).
Proof.
  intros Hr once twice ev_once ev_twice. split.
  - subst once twice. rewrite !handleHashChange_spec. cbn. done.
  - assert (Hr1 : reachable ev_once) by by constructor.
    subst ev_twice. rewrite (dispatch_HashChange_reachable h ev_once Hr1).
    subst ev_once. rewrite (dispatch_HashChange_reachable h rt Hr). cbn. done.
Qed.

Lemma handleHashChange_idempotent_witness :
  currentView (dispatch (HashChange "#aix")
                 (dispatch (HashChange "#aix") (startup (fresh "" (0, 0)%Z)))) =
  currentView (dispatch (HashChange "#aix") (startup (fresh "" (0, 0)%Z))).
Proof.
  destruct (handleHashChange_idempotent (startup (fresh "" (0, 0)%Z)) "#aix"
              (reach_startup "" (0, 0)%Z))
    as (_ & H & _).
  exact H.
Defined.

(** C7: a fragment-change event stores the new navigation state and then
    scrolls the viewport to the origin: the two calls are the only ones it
    makes, in this order, and the scroll position is (0, 0) afterwards. *)
Theorem hashchange_scrolls_to_origin (rt : Runtime) (h : string) :
  reachable rt →
  let rt' := dispatch (HashChange h) rt in
  trace rt' =
    (trace rt ++ [E_setCurrentView (h ||ₛ "#home"); E_scrollTo 0 0])%list ∧
  currentView rt' = h ||ₛ "#home" ∧
  scroll (window rt') = (0, 0)%Z.
Proof.
  intros Hr rt'. subst rt'. by rewrite dispatch_HashChange_reachable.
Qed.

Lemma hashchange_scrolls_to_origin_witness :
  scroll (window (dispatch (HashChange "#aix")
                    (dispatch (Scroll 0 640)
                       (startup (fresh "" (0, 0)%Z))))) = (0, 0)%Z.
Proof.
  apply (hashchange_scrolls_to_origin
           (dispatch (Scroll 0 640) (startup (fresh "" (0, 0)%Z))) "#aix").
  apply reach_dispatch, reach_startup.
Defined.

(** C8: the navigation state is never the empty string: not after the
    first render, not after the effect, not after any sequence of events,
    whatever fragments the browser reports. *)
Theorem currentView_never_empty (hash : string) (pos : Z * Z) (evs : list Event) :
  currentView (App_init (fresh hash pos)) ≠ "" ∧
  currentView (startup (fresh hash pos)) ≠ "" ∧
  currentView (run evs (startup (fresh hash pos))) ≠ "".
Proof.
  split; [by apply or_nonempty |].
  split; apply reachable_nonempty; [| apply run_reachable]; constructor.
Qed.

(** C10: the effect run at startup calls the handler itself, once, after
    registering it and before any event: the navigation state is
    recomputed from the browser fragment and the viewport is scrolled to
    the origin. *)
Theorem startup_runs_handler_once (w : Window) :
  startup w =
    exec handleHashChange
      (exec (window_addEventListener "hashchange" handleHashChange_listener)
         (App_init w)) ∧
  trace (startup w) =
    [E_addEventListener "hashchange" handleHashChange_listener;
     E_setCurrentView (location_hash w ||ₛ "#home");
     E_scrollTo 0 0] ∧
  currentView (startup w) = location_hash w ||ₛ "#home" ∧
  scroll (window (startup w)) = (0, 0)%Z ∧
  location_hash (window (startup w)) = location_hash w.
Proof. repeat split. Qed.

(** ** More on the router *)

Lemma run_app (evs1 evs2 : list Event) (rt : Runtime) :
  run (evs1 ++ evs2) rt = run evs2 (run evs1 rt).
Proof. apply foldl_app. Qed.

Lemma run_cons (ev : Event) (evs : list Event) (rt : Runtime) :
  run (ev :: evs) rt = run evs (dispatch ev rt).
Proof. reflexivity. Qed.

Lemma run_nil (rt : Runtime) : run [] rt = rt.
Proof. reflexivity. Qed.

(** X1: the navigation state depends on the latest fragment only: after
    any history of events, a fragment-change event leaves the state at the
    new fragment, or at [#home] when it is empty, with the viewport at the
    origin. *)
Theorem latest_fragment_decides_state
    (hash : string) (pos : Z * Z) (evs : list Event) (h : string) :
  let rt := run (evs ++ [HashChange h]) (startup (fresh hash pos)) in
  currentView rt = h ||ₛ "#home" ∧
  location_hash (window rt) = h ∧
  scroll (window rt) = (0, 0)%Z ∧
  content (currentView rt) = content (h ||ₛ "#home").
Proof.
  intros rt. subst rt. rewrite run_app, run_cons, run_nil.
  rewrite dispatch_HashChange_reachable
    by (apply run_reachable; constructor).
  done.
Qed.

(** X2: the router does not validate fragments: a non-empty fragment,
    recognized or not, becomes the navigation state unchanged. *)
Theorem nonempty_fragment_passes_through (rt : Runtime) (h : string) :
  reachable rt → h ≠ "" →
  currentView (dispatch (HashChange h) rt) = h.
Proof.
  intros Hr Hh. rewrite dispatch_HashChange_reachable by done. cbn.
  by destruct h.
Qed.

Lemma nonempty_fragment_passes_through_witness :
  currentView (dispatch (HashChange "#unknown-page")
                 (startup (fresh "" (0, 0)%Z))) = "#unknown-page".
Proof.
  apply (nonempty_fragment_passes_through
           (startup (fresh "" (0, 0)%Z)) "#unknown-page").
  - apply reach_startup.
  - discriminate.
Defined.

(** X3: in every state of the mounted application the navigation state
    is the browser's fragment, with [#home] standing for the empty one. *)
Theorem currentView_mirrors_location (rt : Runtime) :
  reachable rt →
  currentView rt = location_hash (window rt) ||ₛ "#home".
Proof.
  induction 1 as [hash pos | rt ev Hr IH].
  - reflexivity.
  - destruct ev as [h | x y].
    + by rewrite dispatch_HashChange_reachable.
    + rewrite dispatch_Scroll by by apply reachable_registered. exact IH.
Qed.

Lemma currentView_mirrors_location_witness :
  currentView (dispatch (Scroll 0 300)
                 (dispatch (HashChange "#aix") (startup (fresh "" (0, 0)%Z)))) =
  "#aix".
Proof.
  apply (currentView_mirrors_location
           (dispatch (Scroll 0 300)
              (dispatch (HashChange "#aix") (startup (fresh "" (0, 0)%Z))))).
  apply reach_dispatch, reach_dispatch, reach_startup.
Defined.

(** X4: whatever the navigation state, recognized or not, the page shows
    either the seven sections of the home page or at most one section;
    in the second case the six registry entries stay mounted. *)
Theorem visible_sections_seven_or_at_most_one (v : string) :
  (isHomePage v = true ∧
   length (visible (content v)) = 7 ∧ hidden (content v) = []) ∨
  (isHomePage v = false ∧
   (length (visible (content v)) ≤ 1)%nat ∧
   (length (visible (content v)) + length (hidden (content v)) = 6)%nat).
Proof.
  unfold content. destruct (isHomePage v) eqn:Hhome.
  - left. repeat split.
  - right. split; [done |].
    unfold visible, hidden. rewrite leaves_renderSinglePageContent.
    destruct (v === "#about") eqn:E1;
      [apply strict_eq_true in E1; subst v; vm_compute; lia |].
    destruct (v === "#programs") eqn:E2;
      [apply strict_eq_true in E2; subst v; vm_compute; lia |].
    destruct (v === "#autonomous-car") eqn:E3;
      [apply strict_eq_true in E3; subst v; vm_compute; lia |].
    destruct (v === "#aix") eqn:E4;
      [apply strict_eq_true in E4; subst v; vm_compute; lia |].
    destruct (v === "#multi-sorter") eqn:E5;
      [apply strict_eq_true in E5; subst v; vm_compute; lia |].
    destruct (v === "#student-exchange"); vm_compute; lia.
Qed.

(** X5: the handler runs once for each fragment-change event and never
    for a scroll event: the calls made over a run are those of the
    startup followed by one [setCurrentView] and one [scrollTo(0, 0)] per
    fragment change, and the window keeps exactly one listener. *)
Theorem handler_runs_once_per_fragment_change
    (hash : string) (pos : Z * Z) (evs : list Event) :
  let rt := run evs (startup (fresh hash pos)) in
  trace rt =
    (trace (startup (fresh hash pos)) ++ flat_map event_trace evs)%list ∧
  listeners (window rt) = [("hashchange", handleHashChange_listener)].
Proof.
  intros rt. split; [| apply reachable_registered, run_reachable; constructor].
  subst rt.
  assert (Hgen : ∀ rt0, reachable rt0 →
            trace (run evs rt0) = (trace rt0 ++ flat_map event_trace evs)%list).
  { induction evs as [| ev evs IH]; intros rt0 Hr.
    - rewrite run_nil. cbn. by rewrite app_nil_r.
    - rewrite run_cons, IH by by constructor.
      destruct ev as [h | x y].
      + rewrite dispatch_HashChange_reachable by done. cbn.
        by rewrite <- app_assoc.
      + rewrite dispatch_Scroll by by apply reachable_registered. done. }
  apply Hgen. constructor.
Qed.

(** *** Teardown *)

Lemma fire_no_listener (type : string) (rt : Runtime) :
  Forall (λ tl, tl.1 ≠ type) (listeners (window rt)) → fire type rt = rt.
Proof.
  unfold fire. generalize (listeners (window rt)) as ls.
  intros ls. revert rt. induction ls as [| tl ls IH]; intros rt Hall.
  - reflexivity.
  - inversion Hall as [| ? ? Hne Hall']; subst. cbn.
    apply strict_eq_false in Hne. rewrite Hne. by apply IH.
Qed.

Lemma filter_Forall_id {A} (P : A → Prop) `{!∀ x, Decision (P x)} (l : list A) :
  Forall P l → filter P l = l.
Proof.
  induction 1 as [| x l Hx _ IH]; [reflexivity |].
  rewrite filter_cons_True by done. by rewrite IH.
Qed.

(** X6: mounting and unmounting is a round trip on the window's
    listeners: on a window where the handler is not yet registered, the
    cleanup of the effect leaves the listeners as they were before the
    mount, and a later fragment change no longer reaches the state. *)
Theorem mount_unmount_restores_listeners (w : Window) (h : string) :
  ("hashchange", handleHashChange_listener) ∉ listeners w →
  let rt := exec App_cleanup (startup w) in
  listeners (window rt) = listeners w ∧
  currentView (dispatch (HashChange h) rt) = currentView (startup w) ∧
  trace (dispatch (HashChange h) rt) = trace rt.
Proof.
  intros Hw rt.
  assert (Hl : listeners (window rt) = listeners w).
  { subst rt.
    change (startup w) with
      (exec handleHashChange
         (exec (window_addEventListener "hashchange" handleHashChange_listener)
            (App_init w))).
    rewrite handleHashChange_spec. unfold App_cleanup. step_monad.
    rewrite bool_decide_eq_false_2 by done.
    rewrite filter_app, filter_cons_False, filter_nil, app_nil_r
      by (intros Hne; by apply Hne).
    apply filter_Forall_id. apply Forall_forall. intros tl Htl ->. by apply Hw. }
  assert (Hv : currentView rt = currentView (startup w)) by reflexivity.
  clearbody rt.
  assert (Hfire : dispatch (HashChange h) rt =
                  with_window (λ w', {| location_hash := h; scroll := scroll w';
                                        listeners := listeners w' |}) rt).
  { unfold dispatch. apply fire_no_listener.
    unfold with_window. cbn [window listeners]. rewrite Hl.
    apply Forall_forall. intros [t l] Htl Ht. cbn in Ht. subst t.
    destruct l. by apply Hw. }
  rewrite Hfire. repeat split; done.
Qed.

Lemma mount_unmount_restores_listeners_witness :
  listeners (window (exec App_cleanup (startup (fresh "#aix" (0, 0)%Z)))) = [].
Proof.
  apply (mount_unmount_restores_listeners (fresh "#aix" (0, 0)%Z) "#about").
  cbn. apply not_elem_of_nil.
Defined.

(** ** Links and the sections they select *)

(** X7: a registry key selects the section of the same name: for the key
    [#x] the one section on screen is the component whose [<section>] has
    the id [x]. *)
Theorem fragment_selects_section_with_its_id (f : string) :
  f ∈ registry_keys →
  ∃ c id, visible (content f) = [c] ∧
          section_id c = Some id ∧
          f = "#" +:+ id.
Proof.
  intros Hf. registry_cases Hf; eexists _, _; repeat split; reflexivity.
Qed.

Lemma fragment_selects_section_with_its_id_witness :
  ∃ c id, visible (content "#multi-sorter") = [c] ∧
          section_id c = Some id ∧
          "#multi-sorter" = "#" +:+ id.
Proof.
  apply (fragment_selects_section_with_its_id "#multi-sorter").
  apply (bool_decide_unpack _). reflexivity.
Defined.



(** X9: the header has a link for every page of the registry, each once,
    and lists them in the order in which the home page shows their
    sections. *)
Theorem navLinks_cover_registry_in_home_order :
  link_href <$> navLinks = home_keys ∧
  link_href <$> navLinks ≡ₚ registry_keys ∧
  NoDup (name <$> navLinks).
Proof.
  split; [reflexivity |].
  split; [vm_compute; solve_Permutation |].
  apply (bool_decide_unpack _). vm_compute. reflexivity.
Qed.

(** X10: a program card opens in the same tab exactly when its link
    starts with [#], and in a new tab otherwise. *)
Theorem ProgramCard_target_self_iff_fragment (link : string) :
  (ProgramCard_target link = "_self" ∧ ∃ rest, link = "#" +:+ rest) ∨
  (ProgramCard_target link = "_blank" ∧ ∀ rest, link ≠ "#" +:+ rest).
Proof.
  unfold ProgramCard_target, startsWith.
  destruct link as [| a rest]; [right; split; [reflexivity | discriminate] |].
  cbn -[Ascii.ascii_dec].
  match goal with
  | |- context [Ascii.ascii_dec ?x a] =>
      destruct (Ascii.ascii_dec x a) as [<- | Hne]
  end.
  - left. split; [by destruct rest | by exists rest].
  - right. split; [reflexivity |]. intros rest' [=]. by apply Hne.
Qed.

(** X11: every in-page link of the programs section works.  An anchor of
    [ProgramDetails] whose [href] starts with [#] is a program card that
    opens in the same tab; following it in a mounted application shows
    exactly the section whose id is the [href] without its [#], from the
    top. *)
Theorem ProgramDetails_links_navigate (rt : Runtime) (h : string) :
  reachable rt → h ∈ anchors ProgramDetails_render → startsWith h "#" = true →
  let rt' := dispatch (HashChange h) rt in
  h ∈ card_link <$> programs ∧
  ProgramCard_target h = "_self" ∧
  h ∈ registry_keys ∧
  currentView rt' = h ∧
  scroll (window rt') = (0, 0)%Z ∧
  ∃ c id, visible (content (currentView rt')) = [c] ∧
          section_id c = Some id ∧ h = "#" +:+ id.
Proof.
  intros Hr Hh Hs rt'. subst rt'.
  rewrite dispatch_HashChange_reachable by done. cbn.
  assert (Hl : anchors ProgramDetails_render =
               ((card_link <$> programs) ++
                ["https://www.intel.com/content/www/us/en/corporate/artificial-intelligence/digital-readiness-ai-for-youth.html";
                 "https://aistudio.google.com/"])%list) by reflexivity.
  rewrite Hl in Hh. cbn in Hh. set_unfold in Hh.
  destruct Hh as [-> | [-> | [-> | [-> | [-> | [-> | []]]]]]];
    try discriminate Hs;
    (split; [apply (bool_decide_unpack _); vm_compute; reflexivity |]);
    (split; [reflexivity |]);
    (split; [apply (bool_decide_unpack _); reflexivity |]);
    (split; [reflexivity |]); (split; [reflexivity |]);
    eexists _, _; repeat split; reflexivity.
Qed.

Lemma ProgramDetails_links_navigate_witness :
  currentView (dispatch (HashChange "#autonomous-car")
                 (startup (fresh "" (0, 0)%Z))) = "#autonomous-car".
Proof.
  apply (ProgramDetails_links_navigate
           (startup (fresh "" (0, 0)%Z)) "#autonomous-car").
  - apply reach_startup.
  - apply (bool_decide_unpack _). vm_compute. reflexivity.
  - reflexivity.
Defined.

(** ** The header's scroll flag *)




Lemma scroll_event_mirrors (before : Window) (p : Page) :
  isScrolled p = handleScroll before →
  isScrolled (scroll_event before p) =
  handleScroll (window (app (scroll_event before p))).
Proof.
  intros Hp. unfold scroll_event. case_bool_decide as Hs; [| reflexivity].
  rewrite Hp. unfold handleScroll. by rewrite Hs.
Qed.

Lemma Page_reachable_mirrors (p : Page) :
  Page_reachable p → isScrolled p = handleScroll (window (app p)).
Proof.
  induction 1 as [hash pos | p ev Hp IH].
  - unfold Page_startup, scroll_event. case_bool_decide; reflexivity.
  - unfold Page_dispatch. apply scroll_event_mirrors. exact IH.
Qed.

(** X12: in every state of the page the header's flag agrees with the
    scroll position: [isScrolled] holds exactly when [scrollY > 10].  The
    header starts from [false] without looking at the position; the
    scroll to the origin made by the effect of [App] is what makes the
    two agree from the start. *)
Theorem Header_flag_mirrors_scroll_position (p : Page) :
  Page_reachable p →
  isScrolled p = handleScroll (window (app p)) ∧
  (isScrolled p = true ↔ (10 < (scroll (window (app p))).2)%Z).
Proof.
  intros Hp. split; [by apply Page_reachable_mirrors |].
  rewrite Page_reachable_mirrors by done. unfold handleScroll. apply Z.ltb_lt.
Qed.

Lemma Header_flag_mirrors_scroll_position_witness :
  isScrolled (Page_dispatch (Scroll 0 11) (Page_startup "#aix" (0, 500)%Z)) =
  handleScroll
    (window (app (Page_dispatch (Scroll 0 11) (Page_startup "#aix" (0, 500)%Z)))).
Proof.
  destruct (Header_flag_mirrors_scroll_position
              (Page_dispatch (Scroll 0 11) (Page_startup "#aix" (0, 500)%Z))
              (Page_reach_dispatch _ _ (Page_reach_startup "#aix" (0, 500)%Z)))
    as [H _].
  exact H.
Defined.



(** ** Numbered step cards *)

Lemma keyed_render_step (index : nat) (step : CycleStep) :
  keyed true (render_step index step) = [(pretty index, true)].
Proof. reflexivity. Qed.

Lemma texts_render_step (index : nat) (step : CycleStep) :
  texts (render_step index step) =
  [icon step; pretty (index + 1); "."; " "; step_title step;
   step_description step].
Proof. reflexivity. Qed.

Lemma keyed_imap_render_step (n : nat) (steps : list CycleStep) :
  flat_map (keyed true) (imap (λ i, render_step (n + i)) steps) =
  (λ i, (pretty i, true)) <$> seq n (length steps).
Proof.
  revert n. induction steps as [| step steps IH]; intros n; [reflexivity |].
  rewrite imap_cons. cbn [flat_map length seq fmap list_fmap].
  rewrite keyed_render_step, Nat.add_0_r. cbn [app]. f_equal.
  rewrite <- (IH (S n)). f_equal. apply imap_ext. intros i x _. cbn.
  f_equal. lia.
Qed.

(** X14: the step grid, for any list of steps: there is one card per
    step, the card at position [i] shows the number [i + 1] followed by a
    dot and then the title of that step, and the React keys of the cards
    are pairwise distinct. *)
Theorem render_steps_numbers_and_keys
    (steps : list CycleStep) (i : nat) (step : CycleStep) :
  steps !! i = Some step →
  length (imap render_step steps) = length steps ∧
  (keyed true (render_steps steps)).*1 = pretty <$> seq 0 (length steps) ∧
  NoDup (keyed true (render_steps steps)).*1 ∧
  ∃ card, imap render_step steps !! i = Some card ∧
          keyed true card = [(pretty i, true)] ∧
          texts card =
            [icon step; pretty (i + 1); "."; " "; step_title step;
             step_description step].
Proof.
  intros Hi.
  assert (Hk : (keyed true (render_steps steps)).*1 =
               pretty <$> seq 0 (length steps)).
  { assert (H0 : keyed true (render_steps steps) =
                 flat_map (keyed true) (imap render_step steps)) by reflexivity.
    rewrite H0.
    assert (H1 : flat_map (keyed true) (imap render_step steps) =
                 (λ i, (pretty i, true)) <$> seq 0 (length steps))
      by exact (keyed_imap_render_step 0 steps).
    rewrite H1, <- list_fmap_compose. reflexivity. }
  split; [apply length_imap |].
  split; [exact Hk |].
  split.
  - rewrite Hk. apply NoDup_fmap_2; [apply _ | apply NoDup_seq].
  - exists (render_step i step). rewrite list_lookup_imap, Hi.
    repeat split.
Qed.

Lemma render_steps_numbers_and_keys_witness :
  ∃ card, imap render_step steps !! 5 = Some card ∧
          texts card !! 1 = Some "6".
Proof.
  destruct (render_steps_numbers_and_keys steps 5
              {| icon := "🚗"; step_title := "배포";
                 step_description := "완성된 AI 모델을 자율주행차에 탑재하고 최종 미션을 수행합니다." |}
              eq_refl)
    as (_ & _ & _ & card & Hc & _ & Ht).
  exists card. split; [exact Hc |]. rewrite Ht. reflexivity.
Defined.

(** ** Startup and navigation between single pages *)

(** X15: the handler call made at startup does not change the navigation
    state set by the first render, nor the fragment; it registers the
    listener and moves the viewport to the origin. *)
Theorem startup_keeps_initial_state (hash : string) (pos : Z * Z) :
  currentView (startup (fresh hash pos)) =
    currentView (App_init (fresh hash pos)) ∧
  content (currentView (startup (fresh hash pos))) =
    content (currentView (App_init (fresh hash pos))) ∧
  location_hash (window (startup (fresh hash pos))) = hash ∧
  window (startup (fresh hash pos)) =
    {| location_hash := hash; scroll := (0, 0)%Z;
       listeners := [("hashchange", handleHashChange_listener)] |}.
Proof. repeat split. Qed.


